(** * abalone_httpd: the agent supervisor and its HTTP handlers

    A shallow embedding of [go/cmd/abalone_httpd/main.go]: the method
    [AgentSupervisor.ValidateImage] and the handlers [ValidateAgentHandler],
    [ShowAgentInfoHandler], [UploadImageHandler] and
    [PullDockerHubAgentHandler].

    The Go code talks to three outside parties: the Docker daemon (through
    [s.Client]), the agent's HTTP server (through [http.Get]) and the
    process log.  Every such call is recorded, in program order, in a trace
    of [Event]s, and what the outside party answers is read from a [World].
    Each Docker call is made at most once in one run of a handler, so an
    answer that depends on the arguments only loses nothing; the answers to
    [http.Get] are indexed by the number of the attempt. *)

From Stdlib Require Import ZArith String List Lia.
From stdpp Require Import base option list strings gmap.

Open Scope Z_scope.
Open Scope string_scope.
Open Scope list_scope.

(** ** time.Duration *)

(** [time.Duration] is an [int64] count of nanoseconds. *)
Definition Duration := Z.

Module time.
Definition Nanosecond : Duration := 1.
Definition Microsecond : Duration := 1000 * Nanosecond.
Definition Millisecond : Duration := 1000 * Microsecond.
Definition Second : Duration := 1000 * Millisecond.
Definition Minute : Duration := 60 * Second.
End time.

(** ** Data of the Docker client *)

(** [docker.Port] is a string such as ["3423/tcp"]. *)
Definition Port := string.

Record PortBinding := mkPortBinding {
  HostIP : string;
  HostPort : string
}.

Record NetworkSettings := mkNetworkSettings {
  Ports : gmap string (list PortBinding)
}.

(** [docker.Container], as far as [ValidateImage] reads it: the identifier
    given by the daemon and, after inspection, the network settings (the
    Go field [NetworkSettings], a pointer that the source dereferences
    without a check; it is taken to be set). *)
Record Container := mkContainer {
  ID : string;
  Network : NetworkSettings
}.

Record Config := mkConfig {
  Image : string;
  ExposedPorts : gset string
}.

Record CreateContainerOptions := mkCreateContainerOptions {
  CreateConfig : Config
}.

Record HostConfig := mkHostConfig {
  PublishAllPorts : bool
}.

(** [docker.Image], as far as [ShowAgentInfoHandler] reads it. *)
Record DockerImage := mkDockerImage {
  ImageConfig : Config
}.

(** ** Errors and formatted text *)

(** An [error] is either one handed over by a library ([ErrorString], with
    its message) or one built by [fmt.Errorf].  The formatting verbs are not
    interpreted: an [Errorf] value keeps the format string and the operands
    of the call, in the order of the source. *)
Inductive error : Type :=
| ErrorString (msg : string)
| Errorf (format : string) (args : list operand)
with operand : Type :=
| OpString (s : string)
| OpErrorMsg (e : error)
| OpError (e : error)
| OpPorts (p : gmap string (list PortBinding)).

(** ** The agent's identity record *)

Record AgentInfo := mkAgentInfo {
  Owner : string;
  Taunts : list string
}.

(** ** The backoff policy *)

(** [backoff.ExponentialBackOff], the three durations that the source sets.
    Its two [float64] fields (randomization factor and multiplier) stay at
    the defaults of the library and are not read by the source. *)
Record ExponentialBackOff := mkExponentialBackOff {
  InitialInterval : Duration;
  MaxInterval : Duration;
  MaxElapsedTime : Duration
}.

(** [backoff.NewExponentialBackOff()], of the imported package
    [github.com/cenkalti/backoff]: its default durations. *)
Definition NewExponentialBackOff : ExponentialBackOff :=
  {| InitialInterval := 500 * time.Millisecond;
     MaxInterval := 60 * time.Second;
     MaxElapsedTime := 15 * time.Minute |}.

Definition setInitialInterval (d : Duration) (b : ExponentialBackOff) :=
  {| InitialInterval := d;
     MaxInterval := MaxInterval b;
     MaxElapsedTime := MaxElapsedTime b |}.

Definition setMaxInterval (d : Duration) (b : ExponentialBackOff) :=
  {| InitialInterval := InitialInterval b;
     MaxInterval := d;
     MaxElapsedTime := MaxElapsedTime b |}.

Definition setMaxElapsedTime (d : Duration) (b : ExponentialBackOff) :=
  {| InitialInterval := InitialInterval b;
     MaxInterval := MaxInterval b;
     MaxElapsedTime := d |}.

(** Lines 288-291 of [main.go]:
<<
    backoffConfig := backoff.NewExponentialBackOff()
    backoffConfig.InitialInterval = time.Second
    backoffConfig.MaxInterval = 10
    backoffConfig.MaxElapsedTime = 10 * time.Second
>>
    The untyped constant [10] assigned to a [time.Duration] is ten
    nanoseconds. *)
Definition backoffConfig : ExponentialBackOff :=
  let b := NewExponentialBackOff in
  let b := setInitialInterval time.Second b in
  let b := setMaxInterval 10 b in
  let b := setMaxElapsedTime (10 * time.Second) b in
  b.

(** ** Calls to the outside and their answers *)

Inductive Event : Type :=
| EvCreateContainer (opts : CreateContainerOptions)
| EvStartContainer (id : string) (hc : HostConfig)
| EvInspectContainer (id : string)
| EvStopContainer (id : string) (timeout : Z)
| EvInspectImage (name : string)
| EvHttpGet (url : string)
| EvCloseBody
| EvSleep (d : Duration)
| EvLog (args : list operand).

Definition Trace := list Event.

(** The outside world of one run.

    - The four container calls and [InspectImage] answer as the daemon does.
    - [HttpGet k url] is the answer to the [k]-th call of [http.Get] (from
      0): the body of the response, or the error of the transport.
    - [JSONDecode body] is [json.NewDecoder(body).Decode(&agentInfo)].
    - [BackOffs] lists the durations that successive calls of
      [NextBackOff] return before it returns [backoff.Stop].  The list is
      finite: [MaxElapsedTime] is not zero, so [NextBackOff] stops once the
      wall clock has passed it. *)
Record World := mkWorld {
  CreateContainer : CreateContainerOptions -> Container + error;
  StartContainer : string -> HostConfig -> option error;
  InspectContainer : string -> Container + error;
  StopContainer : string -> Z -> option error;
  InspectImage : string -> DockerImage + error;
  HttpGet : nat -> string -> string + error;
  JSONDecode : string -> AgentInfo + error;
  BackOffs : ExponentialBackOff -> list Duration
}.

(** ** The monad of traced computations *)

(** The attempt counter of [http.Get] travels with the trace. *)
Record State := mkState {
  trace : Trace;
  gets : nat
}.

Definition M (A : Type) : Type := World -> State -> A * State.

Definition ret {A} (a : A) : M A := fun _ s => (a, s).

Definition bind {A B} (m : M A) (k : A -> M B) : M B :=
  fun w s => let (a, s') := m w s in k a w s'.

Declare Scope go_scope.
Delimit Scope go_scope with go.
Notation "x <- m ;; k" := (bind m (fun x => k))
  (at level 100, m at next level, right associativity) : go_scope.
Notation "m ;;; k" := (bind m (fun _ => k))
  (at level 100, right associativity) : go_scope.
Open Scope go_scope.

Definition emit (e : Event) : M unit :=
  fun _ s => (tt, mkState (trace s ++ [e]) (gets s)).

Definition ask {A} (f : World -> A) : M A := fun w s => (f w, s).

Definition init : State := mkState [] 0.

Definition run {A} (m : M A) (w : World) : A * Trace :=
  let (a, s) := m w init in (a, trace s).

(** *** The calls, each logged and then answered by the world *)

Definition callCreateContainer (opts : CreateContainerOptions)
  : M (Container + error) :=
  emit (EvCreateContainer opts) ;;; ask (fun w => CreateContainer w opts).

Definition callStartContainer (id : string) (hc : HostConfig)
  : M (option error) :=
  emit (EvStartContainer id hc) ;;; ask (fun w => StartContainer w id hc).

Definition callInspectContainer (id : string) : M (Container + error) :=
  emit (EvInspectContainer id) ;;; ask (fun w => InspectContainer w id).

Definition callStopContainer (id : string) (timeout : Z) : M (option error) :=
  emit (EvStopContainer id timeout) ;;; ask (fun w => StopContainer w id timeout).

Definition callInspectImage (name : string) : M (DockerImage + error) :=
  emit (EvInspectImage name) ;;; ask (fun w => InspectImage w name).

Definition httpGet (url : string) : M (string + error) :=
  fun w s =>
    (HttpGet w (gets s) url,
     mkState (trace s ++ [EvHttpGet url]) (S (gets s))).

Definition logPrintln (args : list operand) : M unit := emit (EvLog args).

Definition timeSleep (d : Duration) : M unit := emit (EvSleep d).

(** ** backoff.Retry *)

(** The loop of [backoff.Retry] (imported package, not among the sources of
    the repository; its documentation: "Retry the operation o until it does
    not return error or BackOff stops"):
<<
    for {
        if err = operation(); err == nil { return nil }
        if next = b.NextBackOff(); next == Stop { return err }
        time.Sleep(next)
    }
>>
    [nexts] are the durations [NextBackOff] still has to return before
    [Stop]. *)
Fixpoint retryLoop (operation : M (option error)) (nexts : list Duration)
  : M (option error) :=
  err <- operation ;;
  match err with
  | None => ret None
  | Some e =>
      match nexts with
      | [] => ret (Some e)
      | next :: nexts' => timeSleep next ;;; retryLoop operation nexts'
      end
  end.

(** What the world makes of a backoff configuration is not computed here
    (it reads the wall clock and a random source); the world gives the
    resulting durations. *)
Definition Retry (operation : M (option error)) (b : ExponentialBackOff)
  : M (option error) :=
  nexts <- ask (fun w => BackOffs w b) ;;
  retryLoop operation nexts.

(** ** AgentSupervisor.ValidateImage *)

Definition pingURL (ip port : string) : string :=
  ("http://" ++ ip ++ ":" ++ port ++ "/ping")%string.

(** The closure given to [backoff.Retry] (lines 292-308).  The deferred
    [resp.Body.Close()] runs on both returns that follow a response. *)
Definition ping (ip port : string) : M (option error) :=
  r <- httpGet (pingURL ip port) ;;
  match r with
  | inr err =>
      logPrintln [OpString "error pinging agent. found:"; OpError err] ;;;
      ret (Some err)
  | inl body =>
      d <- ask (fun w => JSONDecode w body) ;;
      match d with
      | inr err => emit EvCloseBody ;;; ret (Some err)
      | inl agentInfo =>
          (if String.eqb (Owner agentInfo) "btc"
           then logPrintln [OpString "yay!"] else ret tt) ;;;
          emit EvCloseBody ;;;
          ret None
      end
  end.

Definition kStopContainerTimeout : Z := 5.

(** [docker.CreateContainerOptions{Config: &docker.Config{Image: image}}] *)
Definition createOptions (image : string) : CreateContainerOptions :=
  {| CreateConfig := {| Image := image; ExposedPorts := ∅ |} |}.

(** Lines 247-317.  [None] is Go's [nil] error.  The result of
    [backoff.Retry] is assigned to [err] and not read afterwards. *)
Definition ValidateImage (image : string) : M (option error) :=
  c <- callCreateContainer (createOptions image) ;;
  match c with
  | inr err =>
      ret (Some (Errorf "error creating container:" [OpErrorMsg err]))
  | inl container =>
      let hc := {| PublishAllPorts := true |} in
      st <- callStartContainer (ID container) hc ;;
      match st with
      | Some err =>
          ret (Some (Errorf "error starting container: %s" [OpErrorMsg err]))
      | None =>
          i <- callInspectContainer (ID container) ;;
          match i with
          | inr err =>
              ret (Some (Errorf "error inspecting container: %s"
                           [OpErrorMsg err]))
          | inl info =>
              match Ports (Network info) !! "3423/tcp" with
              | None =>
                  ret (Some (Errorf
                     "container must expose port 3423/tcp. Found: %+v"
                     [OpPorts (Ports (Network info))]))
              | Some mappings =>
                  (* [len(mappings) != 1] is the second branch *)
                  match mappings with
                  | [m] =>
                      let ip := HostIP m in
                      let port := HostPort m in
                      _err <- Retry (ping ip port) backoffConfig ;;
                      stop <- callStopContainer (ID container)
                                kStopContainerTimeout ;;
                      match stop with
                      | Some err => ret (Some err)
                      | None => ret None
                      end
                  | _ =>
                      ret (Some (Errorf
                         "error. expected one port mapping. found: %+v"
                         [OpPorts (Ports (Network info))]))
                  end
              end
          end
      end
  end.

(** ** net/http: requests and response writers *)

Module http.
Definition StatusOK : Z := 200.
Definition StatusBadRequest : Z := 400.
Definition StatusInternalServerError : Z := 500.
End http.

(** A request, as far as the handlers read it: the parsed form. *)
Record Request := mkRequest {
  Form : gmap string (list string)
}.

(** [r.FormValue(key)]: the first value of the key, or the empty string. *)
Definition FormValue (r : Request) (key : string) : string :=
  match Form r !! key with
  | Some (v :: _) => v
  | _ => EmptyString
  end.

(** What a handler writes to the body, one piece per call. *)
Inductive chunk : Type :=
| Formatted (format : string) (args : list operand)
| Line (args : list operand)
| JSON (ports : gset string).

(** An [http.ResponseWriter]: the status code once the header is written,
    and the body written so far. *)
Record ResponseWriter := mkResponseWriter {
  status : option Z;
  body : list chunk
}.

Definition newResponseWriter : ResponseWriter :=
  {| status := None; body := [] |}.

(** [w.WriteHeader(code)]: the first header written is the one sent. *)
Definition WriteHeader (w : ResponseWriter) (code : Z) : ResponseWriter :=
  match status w with
  | None => {| status := Some code; body := body w |}
  | Some _ => w
  end.

(** [w.Write]: writes the header with [StatusOK] first when none is written
    yet. *)
Definition Write (w : ResponseWriter) (c : chunk) : ResponseWriter :=
  let w := WriteHeader w http.StatusOK in
  {| status := status w; body := body w ++ [c] |}.

Definition Fprintf (w : ResponseWriter) (format : string)
  (args : list operand) : ResponseWriter :=
  Write w (Formatted format args).

Definition Fprintln (w : ResponseWriter) (args : list operand)
  : ResponseWriter :=
  Write w (Line args).

(** [json.NewEncoder(w).Encode(v)] *)
Definition Encode (w : ResponseWriter) (v : gset string) : ResponseWriter :=
  Write w (JSON v).

(** The status code the client receives: a handler that returns without
    writing a header answers with [StatusOK]. *)
Definition statusCode (w : ResponseWriter) : Z :=
  default http.StatusOK (status w).

(** ** The handlers *)

(** Lines 175-193.  The deferred [log.Println("returned")] runs on each of
    the three returns. *)
Definition ValidateAgentHandler (w : ResponseWriter) (r : Request)
  : M ResponseWriter :=
  w' <- (if String.eqb (FormValue r "image") EmptyString then
           let w := WriteHeader w http.StatusBadRequest in
           ret (Fprintln w [OpString "`image` parameter is required"])
         else
           let image := FormValue r "image" in
           err <- ValidateImage image ;;
           match err with
           | Some err =>
               ret (Fprintf w "image %s is not valid. error: %s"
                      [OpString image; OpError err])
           | None =>
               ret (Fprintf w "image %s is valid" [OpString image])
           end) ;;
  logPrintln [OpString "returned"] ;;;
  ret w'.

(** Lines 201-210. *)
Definition ShowAgentInfoHandler (w : ResponseWriter) (r : Request)
  : M ResponseWriter :=
  i <- callInspectImage "jbenet/go-ipfs" ;;
  match i with
  | inr err => ret (WriteHeader w http.StatusInternalServerError)
  | inl image => ret (Encode w (ExposedPorts (ImageConfig image)))
  end.

(** ** Reading a trace *)

(** How often [StopContainer] was called. *)
Fixpoint stops (t : Trace) : nat :=
  match t with
  | [] => 0%nat
  | EvStopContainer _ _ :: t' => S (stops t')
  | _ :: t' => stops t'
  end.

(** The URLs requested, in order. *)
Fixpoint getURLs (t : Trace) : list string :=
  match t with
  | [] => []
  | EvHttpGet url :: t' => url :: getURLs t'
  | _ :: t' => getURLs t'
  end.

(** How many probe attempts were made. *)
Definition probes (t : Trace) : nat := length (getURLs t).

(** ** Worlds for the examples *)

Module Examples.

Definition ports1 : gmap string (list PortBinding) :=
  {[ "3423/tcp" := [ {| HostIP := "0.0.0.0"; HostPort := "49001" |} ] ]}.

Definition ports2 : gmap string (list PortBinding) :=
  {[ "3423/tcp" := [ {| HostIP := "0.0.0.0"; HostPort := "49001" |};
                     {| HostIP := "0.0.0.0"; HostPort := "49002" |} ] ]}.

Definition created : Container :=
  {| ID := "c1"; Network := {| Ports := ∅ |} |}.

Definition inspected (ports : gmap string (list PortBinding)) : Container :=
  {| ID := "c1"; Network := {| Ports := ports |} |}.

Definition refused : error := ErrorString "connection refused".
Definition badJSON : error := ErrorString "invalid character".
Definition cannotStop : error := ErrorString "cannot stop container".

Definition decodeOK (body : string) : AgentInfo + error :=
  if String.eqb body "garbage" then inr badJSON
  else inl {| Owner := "btc"; Taunts := ["gg"] |}.

(** A world in which every Docker call succeeds; the answers of the
    agent, the published ports and the outcome of stopping vary. *)
Definition world (ports : gmap string (list PortBinding))
  (get : nat -> string + error) (stop : option error) : World :=
  {| CreateContainer := fun _ => inl created;
     StartContainer := fun _ _ => None;
     InspectContainer := fun _ => inl (inspected ports);
     StopContainer := fun _ _ => stop;
     InspectImage := fun _ =>
       inl {| ImageConfig := {| Image := "jbenet/go-ipfs";
                                ExposedPorts := {[ "4001/tcp" ]} |} |};
     HttpGet := fun k _ => get k;
     JSONDecode := decodeOK;
     BackOffs := fun _ => [time.Second; 10; 10] |}.

Definition okAgent : World := world ports1 (fun _ => inl "identity") None.
Definition badPort : World := world ∅ (fun _ => inl "identity") None.
Definition twoPorts : World := world ports2 (fun _ => inl "identity") None.
Definition slowAgent : World := world ports1 (fun _ => inr refused) None.
Definition garbageAgent : World := world ports1 (fun _ => inl "garbage") None.

(** Garbage at the first attempt, the identity record afterwards. *)
Definition lateAgent : World :=
  world ports1
    (fun k => match k with O => inl "garbage" | S _ => inl "identity" end)
    None.

(** A good agent whose container cannot be stopped. *)
Definition leakyOkAgent : World :=
  world ports1 (fun _ => inl "identity") (Some cannotStop).

Definition setCreate (f : CreateContainerOptions -> Container + error)
  (w : World) : World :=
  {| CreateContainer := f;
     StartContainer := StartContainer w;
     InspectContainer := InspectContainer w;
     StopContainer := StopContainer w;
     InspectImage := InspectImage w;
     HttpGet := HttpGet w;
     JSONDecode := JSONDecode w;
     BackOffs := BackOffs w |}.

Definition setStart (f : string -> HostConfig -> option error)
  (w : World) : World :=
  {| CreateContainer := CreateContainer w;
     StartContainer := f;
     InspectContainer := InspectContainer w;
     StopContainer := StopContainer w;
     InspectImage := InspectImage w;
     HttpGet := HttpGet w;
     JSONDecode := JSONDecode w;
     BackOffs := BackOffs w |}.

Definition setInspect (f : string -> Container + error)
  (w : World) : World :=
  {| CreateContainer := CreateContainer w;
     StartContainer := StartContainer w;
     InspectContainer := f;
     StopContainer := StopContainer w;
     InspectImage := InspectImage w;
     HttpGet := HttpGet w;
     JSONDecode := JSONDecode w;
     BackOffs := BackOffs w |}.

Definition noSuchImage : World :=
  setCreate (fun _ => inr (ErrorString "no such image")) okAgent.
Definition cannotStart : World :=
  setStart (fun _ _ => Some (ErrorString "cannot start")) okAgent.
Definition cannotInspect : World :=
  setInspect (fun _ => inr (ErrorString "cannot inspect")) okAgent.

Definition validateRequest (image : string) : Request :=
  {| Form := {[ "image" := [image] ]} |}.

End Examples.

(** ** The spec's reading of two steps, for comparison with the code *)

(** Spec, 4.2: a response that does not decode ends the probe at once, with
    the decoding error and without another attempt. *)
Definition decode_failure_ends_probe (w : World) (ip port : string) : Prop :=
  forall body e,
    HttpGet w 0 (pingURL ip port) = inl body ->
    JSONDecode w body = inr e ->
    fst (run (Retry (ping ip port) backoffConfig) w) = Some e /\
    probes (snd (run (Retry (ping ip port) backoffConfig) w)) = 1%nat.

(** Spec, 4.3 step 4 and section 7: once the probe has given its verdict,
    that verdict is the result of the validation, whatever stopping the
    container does. *)
Definition verdict_stands (w : World) (image ip port : string) : Prop :=
  fst (run (ValidateImage image) w)
  = fst (run (Retry (ping ip port) backoffConfig) w).

(** ** Independence of the trace *)

(** Running [m] after the events [t]: same result, same counter, and the
    events of [m] appended to [t]. *)
Definition framed {A} (m : M A) : Prop :=
  forall w t g,
    m w (mkState t g) =
    (fst (m w (mkState [] g)),
     mkState (t ++ trace (snd (m w (mkState [] g))))
             (gets (snd (m w (mkState [] g))))).

(** ** More readings of a trace *)

(** The durations slept, in order. *)
Fixpoint sleeps (t : Trace) : list Duration :=
  match t with
  | [] => []
  | EvSleep d :: t' => d :: sleeps t'
  | _ :: t' => sleeps t'
  end.

(** How many response bodies were closed. *)
Fixpoint closes (t : Trace) : nat :=
  match t with
  | [] => 0%nat
  | EvCloseBody :: t' => S (closes t')
  | _ :: t' => closes t'
  end.

(** The calls to the Docker daemon, in order. *)
Fixpoint dockerCalls (t : Trace) : list Event :=
  match t with
  | [] => []
  | EvCreateContainer opts :: t' => EvCreateContainer opts :: dockerCalls t'
  | EvStartContainer id hc :: t' => EvStartContainer id hc :: dockerCalls t'
  | EvInspectContainer id :: t' => EvInspectContainer id :: dockerCalls t'
  | EvStopContainer id timeout :: t' =>
      EvStopContainer id timeout :: dockerCalls t'
  | EvInspectImage name :: t' => EvInspectImage name :: dockerCalls t'
  | _ :: t' => dockerCalls t'
  end.

(** What the world has in store for the [k]-th attempt at [url]: [None]
    when the request is answered and the answer decodes, the error of the
    transport or of the decoder otherwise. *)
Definition attempt (w : World) (url : string) (k : nat) : option error :=
  match HttpGet w k url with
  | inr e => Some e
  | inl body =>
      match JSONDecode w body with
      | inr e => Some e
      | inl _ => None
      end
  end.

(** Whether the [k]-th request is answered at all. *)
Definition answered (w : World) (url : string) (k : nat) : bool :=
  match HttpGet w k url with
  | inl _ => true
  | inr _ => false
  end.

(** How many of the [n] requests from the [g]-th on are answered. *)
Fixpoint responses (w : World) (url : string) (g n : nat) : nat :=
  match n with
  | O => 0%nat
  | S n' =>
      ((if answered w url g then 1 else 0) + responses w url (S g) n')%nat
  end.

(** ** The upload and pull handlers *)

Definition StatusNotImplemented : Z := 501.

(** The anonymous struct [rs] of [UploadImageHandler]. *)
Record UploadRequest := mkUploadRequest {
  rsImage : string;
  rsSource : string
}.

(** Lines 214-240.  [decode r] is
    [json.NewDecoder(r.Body).Decode(&rs)]: the decoded struct, or the error
    of the decoder.  In the case ["dockerhub"] nothing is written when the
    image is valid: the handler returns at the end of the [switch]. *)
Definition UploadImageHandler (decode : Request -> UploadRequest + error)
  (w : ResponseWriter) (r : Request) : M ResponseWriter :=
  match decode r with
  | inr err =>
      let w := WriteHeader w http.StatusBadRequest in
      ret (Fprintf w "error decoding request: %s" [OpError err])
  | inl rs =>
      if String.eqb (rsSource rs) "dockerhub" then
        err <- ValidateImage (rsImage rs) ;;
        match err with
        | Some err =>
            let w := WriteHeader w http.StatusBadRequest in
            ret (Fprintf w "image %s is not valid. error: %s"
                   [OpString (rsImage rs); OpError err])
        | None => ret w
        end
      else if String.eqb (rsSource rs) "github" then
        let w := WriteHeader w StatusNotImplemented in
        ret (Fprintln w
               [OpString
                  "Sorry. GitHub repo support has not been implemented yet."])
      else
        let w := WriteHeader w http.StatusBadRequest in
        ret (Fprintf w "Unrecognized image source: %s"
               [OpString (rsSource rs)])
  end.

(** [docker.PullImageOptions] without its [OutputStream], which is the
    response writer of the handler. *)
Record PullImageOptions := mkPullImageOptions {
  Registry : string;
  Repository : string;
  Tag : string
}.

(** A piece of text that the Docker client writes to the response as it
    is. *)
Definition streamed (text : string) : chunk := Formatted text [].

(** Lines 114-130.  [PullImage opts] is what the Docker client does with
    the pull: the pieces of progress output it writes to [OutputStream],
    and then its result.  The handler returns the response together with
    the pulls it asked for. *)
Definition PullDockerHubAgentHandler
  (PullImage : PullImageOptions -> list string * option error)
  (w : ResponseWriter) (r : Request)
  : ResponseWriter * list PullImageOptions :=
  if String.eqb (FormValue r "image") EmptyString then
    (WriteHeader w http.StatusBadRequest, [])
  else
    let opts := {| Registry := "https://index.docker.io";
                   Repository := FormValue r "image";
                   Tag := "latest" |} in
    let (output, err) := PullImage opts in
    let w := fold_left (fun w text => Write w (streamed text)) output w in
    match err with
    | Some err =>
        let w := WriteHeader w http.StatusInternalServerError in
        (Fprintln w [OpError err], [opts])
    | None => (w, [opts])
    end.

Module MoreExamples.

Definition noImage : Request := {| Form := ∅ |}.

Definition decodeAs (rs : UploadRequest) (r : Request)
  : UploadRequest + error := inl rs.

Definition fromDockerhub (image : string) : UploadRequest :=
  {| rsImage := image; rsSource := "dockerhub" |}.

Definition fromGithub (image : string) : UploadRequest :=
  {| rsImage := image; rsSource := "github" |}.

Definition pullFailsMidway (opts : PullImageOptions)
  : list string * option error :=
  (["Pulling repository"], Some (ErrorString "connection reset")).

Definition pullFailsAtOnce (opts : PullImageOptions)
  : list string * option error :=
  ([], Some (ErrorString "no such host")).

End MoreExamples.

(** * Properties *)

(** ** The trace only grows, and answers do not depend on it *)

Arguments Retry : simpl never.
Arguments backoffConfig : simpl never.

Ltac unfold_go :=
  unfold run, callCreateContainer, callStartContainer, callInspectContainer,
    callStopContainer, callInspectImage, httpGet, logPrintln, timeSleep,
    emit, ask, bind, ret, init in *; cbn [trace gets fst snd] in *.

Lemma ping_framed (ip port : string) : framed (ping ip port).
Proof.
  intros w t g. unfold ping. unfold_go.
  destruct (HttpGet w g (pingURL ip port)) as [body|err]; cbn.
  - destruct (JSONDecode w body) as [info|err]; cbn.
    + destruct (String.eqb (Owner info) "btc"); cbn;
        rewrite <- ?app_assoc; reflexivity.
    + rewrite <- ?app_assoc; reflexivity.
  - rewrite <- ?app_assoc; reflexivity.
Qed.

Lemma retryLoop_framed (operation : M (option error)) (nexts : list Duration) :
  framed operation -> framed (retryLoop operation nexts).
Proof.
  intros Hop. induction nexts as [|next nexts IH]; intros w t g; cbn;
    unfold bind; rewrite (Hop w t g);
    destruct (operation w (mkState [] g)) as [[e|] [t1 g1]]; cbn;
    try rewrite app_nil_l; try reflexivity.
  unfold timeSleep, emit. cbn.
  rewrite (IH w ((t ++ t1) ++ [EvSleep next]) g1).
  rewrite (IH w (t1 ++ [EvSleep next]) g1). cbn.
  rewrite <- !app_assoc. reflexivity.
Qed.

Lemma Retry_framed (ip port : string) (b : ExponentialBackOff) :
  framed (Retry (ping ip port) b).
Proof.
  intros w t g. unfold Retry, bind, ask.
  apply retryLoop_framed, ping_framed.
Qed.

Lemma getURLs_app (t1 t2 : Trace) :
  getURLs (t1 ++ t2) = getURLs t1 ++ getURLs t2.
Proof.
  induction t1 as [|e t1 IH]; [reflexivity|].
  destruct e; cbn; rewrite ?IH; reflexivity.
Qed.

Lemma stops_app (t1 t2 : Trace) : stops (t1 ++ t2) = (stops t1 + stops t2)%nat.
Proof.
  induction t1 as [|e t1 IH]; [reflexivity|].
  destruct e; cbn; rewrite ?IH; reflexivity.
Qed.

(** One run of the closure makes one request, to the URL of its endpoint,
    and never stops a container. *)
Lemma ping_trace (ip port : string) (w : World) (g : nat) :
  getURLs (trace (snd (ping ip port w (mkState [] g)))) = [pingURL ip port]
  /\ stops (trace (snd (ping ip port w (mkState [] g)))) = 0%nat
  /\ gets (snd (ping ip port w (mkState [] g))) = S g.
Proof.
  unfold ping. unfold_go.
  destruct (HttpGet w g (pingURL ip port)) as [body|err]; cbn.
  - destruct (JSONDecode w body) as [info|err]; cbn.
    + destruct (String.eqb (Owner info) "btc"); cbn; auto.
    + auto.
  - auto.
Qed.

(** Every request of the probe goes to the endpoint it was given, at least
    one request is made, and the probe stops no container. *)
Lemma retryLoop_trace (ip port : string) (nexts : list Duration)
  (w : World) (g : nat) :
  let t := trace (snd (retryLoop (ping ip port) nexts w (mkState [] g))) in
  Forall (fun url => url = pingURL ip port) (getURLs t)
  /\ (1 <= probes t)%nat
  /\ stops t = 0%nat.
Proof.
  revert g. induction nexts as [|next nexts IH]; intros g; cbn zeta.
  - cbn [retryLoop]. unfold bind.
    destruct (ping_trace ip port w g) as (Hu & Hs & _).
    destruct (ping ip port w (mkState [] g)) as [[e|] s1]; cbn in *;
      unfold probes; rewrite Hu; cbn; repeat split; auto.
  - cbn [retryLoop]. unfold bind.
    destruct (ping_trace ip port w g) as (Hu & Hs & Hg).
    destruct (ping ip port w (mkState [] g)) as [[e|] [t1 g1]]; cbn in *.
    + unfold timeSleep, emit; cbn.
      rewrite (retryLoop_framed _ nexts (ping_framed ip port) w). cbn.
      specialize (IH g1). cbn zeta in IH. destruct IH as (IH1 & IH2 & IH3).
      unfold probes in *. rewrite !getURLs_app, !stops_app, Hu, Hs, IH3.
      cbn. repeat split; auto.
    + unfold probes; rewrite Hu; cbn; repeat split; auto.
Qed.

(** ** The five ways through [ValidateImage] *)

Section Paths.

Variables (w : World) (image : string).

Local Abbreviation hc := {| PublishAllPorts := true |}.

Lemma ValidateImage_create_fails (err : error) :
  CreateContainer w (createOptions image) = inr err ->
  run (ValidateImage image) w =
    (Some (Errorf "error creating container:" [OpErrorMsg err]),
     [EvCreateContainer (createOptions image)]).
Proof.
  intros Hc. unfold ValidateImage. unfold_go. rewrite Hc. reflexivity.
Qed.

Variable c : Container.
Hypothesis created : CreateContainer w (createOptions image) = inl c.

Lemma ValidateImage_start_fails (err : error) :
  StartContainer w (ID c) hc = Some err ->
  run (ValidateImage image) w =
    (Some (Errorf "error starting container: %s" [OpErrorMsg err]),
     [EvCreateContainer (createOptions image);
      EvStartContainer (ID c) hc]).
Proof.
  intros Hs. unfold ValidateImage. unfold_go.
  rewrite created. cbn. rewrite Hs. reflexivity.
Qed.

Hypothesis started : StartContainer w (ID c) hc = None.

Lemma ValidateImage_inspect_fails (err : error) :
  InspectContainer w (ID c) = inr err ->
  run (ValidateImage image) w =
    (Some (Errorf "error inspecting container: %s" [OpErrorMsg err]),
     [EvCreateContainer (createOptions image);
      EvStartContainer (ID c) hc;
      EvInspectContainer (ID c)]).
Proof.
  intros Hi. unfold ValidateImage. unfold_go.
  rewrite created. cbn. rewrite started. cbn. rewrite Hi. reflexivity.
Qed.

Variable info : Container.
Hypothesis inspected : InspectContainer w (ID c) = inl info.

Lemma ValidateImage_port_missing :
  Ports (Network info) !! "3423/tcp" = None ->
  run (ValidateImage image) w =
    (Some (Errorf "container must expose port 3423/tcp. Found: %+v"
             [OpPorts (Ports (Network info))]),
     [EvCreateContainer (createOptions image);
      EvStartContainer (ID c) hc;
      EvInspectContainer (ID c)]).
Proof.
  intros Hp. unfold ValidateImage. unfold_go.
  rewrite created. cbn. rewrite started. cbn. rewrite inspected. cbn.
  rewrite Hp. reflexivity.
Qed.

Lemma ValidateImage_not_one_mapping (mappings : list PortBinding) :
  Ports (Network info) !! "3423/tcp" = Some mappings ->
  length mappings <> 1%nat ->
  run (ValidateImage image) w =
    (Some (Errorf "error. expected one port mapping. found: %+v"
             [OpPorts (Ports (Network info))]),
     [EvCreateContainer (createOptions image);
      EvStartContainer (ID c) hc;
      EvInspectContainer (ID c)]).
Proof.
  intros Hp Hl. unfold ValidateImage. unfold_go.
  rewrite created. cbn. rewrite started. cbn. rewrite inspected. cbn.
  rewrite Hp. destruct mappings as [|m1 [|m2 rest]]; cbn in *;
    try reflexivity. congruence.
Qed.

Lemma ValidateImage_probe_path (m : PortBinding) :
  Ports (Network info) !! "3423/tcp" = Some [m] ->
  run (ValidateImage image) w =
    (StopContainer w (ID c) kStopContainerTimeout,
     [EvCreateContainer (createOptions image);
      EvStartContainer (ID c) hc;
      EvInspectContainer (ID c)]
     ++ snd (run (Retry (ping (HostIP m) (HostPort m)) backoffConfig) w)
     ++ [EvStopContainer (ID c) kStopContainerTimeout]).
Proof.
  intros Hp. unfold ValidateImage. unfold_go.
  rewrite created. cbn. rewrite started. cbn. rewrite inspected. cbn.
  rewrite Hp.
  rewrite (Retry_framed (HostIP m) (HostPort m) backoffConfig w).
  destruct (Retry (ping (HostIP m) (HostPort m)) backoffConfig w
              (mkState [] 0)) as [r [t g]]; cbn.
  destruct (StopContainer w (ID c) kStopContainerTimeout); cbn;
    rewrite <- ?app_assoc; reflexivity.
Qed.

End Paths.

(** [StopContainer] is never called twice in one validation. *)
Lemma ValidateImage_stops_at_most_once (w : World) (image : string) :
  (stops (snd (run (ValidateImage image) w)) <= 1)%nat.
Proof.
  destruct (CreateContainer w (createOptions image)) as [c|e] eqn:Hc.
  2:{ rewrite (ValidateImage_create_fails w image e Hc). cbn. lia. }
  destruct (StartContainer w (ID c) {| PublishAllPorts := true |})
    as [e|] eqn:Hs.
  { rewrite (ValidateImage_start_fails w image c Hc e Hs). cbn. lia. }
  destruct (InspectContainer w (ID c)) as [info|e] eqn:Hi.
  2:{ rewrite (ValidateImage_inspect_fails w image c Hc Hs e Hi). cbn. lia. }
  destruct (Ports (Network info) !! "3423/tcp") as [mappings|] eqn:Hp.
  2:{ rewrite (ValidateImage_port_missing w image c Hc Hs info Hi Hp).
      cbn. lia. }
  destruct (decide (length mappings = 1%nat)) as [Hl|Hl].
  2:{ rewrite (ValidateImage_not_one_mapping w image c Hc Hs info Hi
                 mappings Hp Hl). cbn. lia. }
  destruct mappings as [|m [|m2 rest]]; try discriminate Hl.
  rewrite (ValidateImage_probe_path w image c Hc Hs info Hi m Hp).
  cbn [snd]. rewrite !stops_app. cbn.
  unfold run, Retry, bind, ask, init.
  pose proof (retryLoop_trace (HostIP m) (HostPort m)
                (BackOffs w backoffConfig) w 0) as (_ & _ & H0).
  destruct (retryLoop (ping (HostIP m) (HostPort m))
              (BackOffs w backoffConfig) w (mkState [] 0)) as [r s].
  cbn in *. rewrite H0. lia.
Qed.

(** ** Release on every branch *)

(** C1.  In one run of [ValidateImage] that created a container, the claim
    wants [StopContainer] called exactly once on every branch.  The code
    calls it once on the probing branch only (here: a good agent and an
    agent that never answers); on the four early returns (start failure,
    inspection failure, port not published, two mappings) it returns with
    the container created and [StopContainer] not called at all. *)
Theorem ValidateImage_early_returns_skip_StopContainer :
  let agent := "agent" in
  (CreateContainer Examples.cannotStart (createOptions agent)
     = inl Examples.created
   /\ stops (snd (run (ValidateImage agent) Examples.cannotStart)) = 0%nat)
  /\ (CreateContainer Examples.cannotInspect (createOptions agent)
        = inl Examples.created
      /\ stops (snd (run (ValidateImage agent) Examples.cannotInspect)) = 0%nat)
  /\ (CreateContainer Examples.badPort (createOptions agent)
        = inl Examples.created
      /\ stops (snd (run (ValidateImage agent) Examples.badPort)) = 0%nat)
  /\ (CreateContainer Examples.twoPorts (createOptions agent)
        = inl Examples.created
      /\ stops (snd (run (ValidateImage agent) Examples.twoPorts)) = 0%nat)
  /\ stops (snd (run (ValidateImage agent) Examples.okAgent)) = 1%nat
  /\ stops (snd (run (ValidateImage agent) Examples.slowAgent)) = 1%nat.
Proof. vm_compute. repeat split. Qed.

(** ** The probe *)

(** C2, as the code has it.  A response whose body does not decode makes
    the closure return the decoding error, and [backoff.Retry] treats that
    error as any other: with the policy stopped the probe ends with it;
    with a duration [next] left the probe sleeps [next] and makes another
    attempt. *)
Theorem decode_failure_is_retried (w : World) (s : State)
  (ip port body : string) (e : error) :
  HttpGet w (gets s) (pingURL ip port) = inl body ->
  JSONDecode w body = inr e ->
  let s1 := mkState (trace s ++ [EvHttpGet (pingURL ip port); EvCloseBody])
                    (S (gets s)) in
  ping ip port w s = (Some e, s1)
  /\ retryLoop (ping ip port) [] w s = (Some e, s1)
  /\ forall next nexts,
       retryLoop (ping ip port) (next :: nexts) w s
       = retryLoop (ping ip port) nexts w
           (mkState (trace s1 ++ [EvSleep next]) (gets s1)).
Proof.
  intros Hg Hd s1.
  assert (Hping : ping ip port w s = (Some e, s1)).
  { unfold ping. unfold_go. rewrite Hg. cbn. rewrite Hd. cbn.
    subst s1. rewrite <- app_assoc. reflexivity. }
  split; [exact Hping|]. split.
  - cbn [retryLoop]. unfold bind. rewrite Hping. reflexivity.
  - intros next nexts. cbn [retryLoop]. unfold bind. rewrite Hping.
    reflexivity.
Qed.

Lemma decode_failure_is_retried_witness :
  HttpGet Examples.garbageAgent (gets init) (pingURL "0.0.0.0" "49001")
    = inl "garbage"
  /\ JSONDecode Examples.garbageAgent "garbage" = inr Examples.badJSON
  /\ retryLoop (ping "0.0.0.0" "49001") [] Examples.garbageAgent init
     = (Some Examples.badJSON,
        mkState [EvHttpGet (pingURL "0.0.0.0" "49001"); EvCloseBody] 1).
Proof.
  split; [reflexivity|]. split; [reflexivity|].
  apply (decode_failure_is_retried Examples.garbageAgent init
           "0.0.0.0" "49001" "garbage" Examples.badJSON);
    reflexivity.
Defined.

(** C2, as the spec states it, fails: the agent that answers garbage once
    and its identity afterwards is asked twice, and the probe succeeds. *)
Lemma decode_failure_ends_probe_fails :
  ~ decode_failure_ends_probe Examples.lateAgent "0.0.0.0" "49001".
Proof.
  intros H.
  destruct (H "garbage" Examples.badJSON eq_refl eq_refl) as [H1 _].
  vm_compute in H1. discriminate H1.
Qed.

(** A transport error takes the same way through the loop. *)
Lemma transport_failure_is_retried (w : World) (s : State)
  (ip port : string) (e : error) (next : Duration) (nexts : list Duration) :
  HttpGet w (gets s) (pingURL ip port) = inr e ->
  retryLoop (ping ip port) (next :: nexts) w s
  = retryLoop (ping ip port) nexts w
      (mkState (trace s ++ [EvHttpGet (pingURL ip port);
                            EvLog [OpString "error pinging agent. found:";
                                   OpError e];
                            EvSleep next])
               (S (gets s))).
Proof.
  intros Hg. cbn [retryLoop]. unfold ping. unfold_go. rewrite Hg. cbn.
  rewrite <- !app_assoc. reflexivity.
Qed.

(** C3.  The agent never answers: the probe ends with the last transport
    error, yet [ValidateImage] returns [nil] and the handler reports the
    image as valid.  The claim wants the error of the probe returned. *)
Theorem ValidateImage_drops_probe_error :
  fst (run (Retry (ping "0.0.0.0" "49001") backoffConfig) Examples.slowAgent)
    = Some Examples.refused
  /\ fst (run (ValidateImage "slow-agent") Examples.slowAgent) = None
  /\ body (fst (run (ValidateAgentHandler newResponseWriter
                       (Examples.validateRequest "slow-agent"))
                  Examples.slowAgent))
     = [Formatted "image %s is valid" [OpString "slow-agent"]].
Proof. vm_compute. repeat split. Qed.

(** ** The port table *)

(** C4.  The container started and its port table has no entry for
    ["3423/tcp"]: [ValidateImage] returns the port error and no request is
    made, as the claim says, but the container is left running:
    [StopContainer] is not called, where the claim wants it called once. *)
Theorem ValidateImage_port_missing_skips_StopContainer :
  Ports (Network (Examples.inspected ∅)) !! "3423/tcp" = None
  /\ fst (run (ValidateImage "bad-port") Examples.badPort)
     = Some (Errorf "container must expose port 3423/tcp. Found: %+v"
               [OpPorts ∅])
  /\ probes (snd (run (ValidateImage "bad-port") Examples.badPort)) = 0%nat
  /\ stops (snd (run (ValidateImage "bad-port") Examples.badPort)) = 0%nat.
Proof. vm_compute. repeat split. Qed.

(** C7.  A container was created, started and inspected.  With exactly one
    mapping for ["3423/tcp"], every request of the validation goes to the
    host IP and host port of that mapping, and at least one is made.  With
    two or more mappings the validation returns the one-mapping error and
    makes no request at all. *)
Theorem endpoint_of_single_mapping (w : World) (image : string)
  (c info : Container) :
  CreateContainer w (createOptions image) = inl c ->
  StartContainer w (ID c) {| PublishAllPorts := true |} = None ->
  InspectContainer w (ID c) = inl info ->
  (forall m : PortBinding,
      Ports (Network info) !! "3423/tcp" = Some [m] ->
      Forall (fun url => url = pingURL (HostIP m) (HostPort m))
             (getURLs (snd (run (ValidateImage image) w)))
      /\ (1 <= probes (snd (run (ValidateImage image) w)))%nat)
  /\ (forall (m1 m2 : PortBinding) (rest : list PortBinding),
         Ports (Network info) !! "3423/tcp" = Some (m1 :: m2 :: rest) ->
         fst (run (ValidateImage image) w)
         = Some (Errorf "error. expected one port mapping. found: %+v"
                   [OpPorts (Ports (Network info))])
         /\ probes (snd (run (ValidateImage image) w)) = 0%nat).
Proof.
  intros Hc Hs Hi. split.
  - intros m Hp.
    rewrite (ValidateImage_probe_path w image c Hc Hs info Hi m Hp).
    cbn [snd]. unfold probes. rewrite !getURLs_app. cbn.
    rewrite app_nil_r.
    unfold run, Retry, bind, ask, init.
    pose proof (retryLoop_trace (HostIP m) (HostPort m)
                  (BackOffs w backoffConfig) w 0) as (HF & H1 & _).
    destruct (retryLoop (ping (HostIP m) (HostPort m))
                (BackOffs w backoffConfig) w (mkState [] 0)) as [r s].
    cbn in *. split; assumption.
  - intros m1 m2 rest Hp.
    rewrite (ValidateImage_not_one_mapping w image c Hc Hs info Hi
               (m1 :: m2 :: rest) Hp); [|cbn; lia].
    split; reflexivity.
Qed.

Lemma endpoint_of_single_mapping_witness :
  CreateContainer Examples.okAgent (createOptions "ok-agent")
    = inl Examples.created
  /\ StartContainer Examples.okAgent (ID Examples.created)
       {| PublishAllPorts := true |} = None
  /\ InspectContainer Examples.okAgent (ID Examples.created)
     = inl (Examples.inspected Examples.ports1)
  /\ Ports (Network (Examples.inspected Examples.ports1)) !! "3423/tcp"
     = Some [ {| HostIP := "0.0.0.0"; HostPort := "49001" |} ]
  /\ Forall (fun url => url = "http://0.0.0.0:49001/ping")
       (getURLs (snd (run (ValidateImage "ok-agent") Examples.okAgent)))
  /\ (1 <= probes (snd (run (ValidateImage "ok-agent") Examples.okAgent)))%nat.
Proof.
  repeat (split; [reflexivity|]).
  apply (proj1 (endpoint_of_single_mapping Examples.okAgent "ok-agent"
                  Examples.created (Examples.inspected Examples.ports1)
                  eq_refl eq_refl eq_refl)
           {| HostIP := "0.0.0.0"; HostPort := "49001" |}).
  reflexivity.
Defined.

(** ** Teardown and the result *)

(** C5, as the code has it.  On the probing branch, after a probe that
    succeeded, the result of [ValidateImage] is the result of
    [StopContainer]: the validation succeeds when the container stops and
    returns the teardown error when it does not. *)
Theorem teardown_error_is_the_result (w : World) (image : string)
  (c info : Container) (m : PortBinding) :
  CreateContainer w (createOptions image) = inl c ->
  StartContainer w (ID c) {| PublishAllPorts := true |} = None ->
  InspectContainer w (ID c) = inl info ->
  Ports (Network info) !! "3423/tcp" = Some [m] ->
  fst (run (Retry (ping (HostIP m) (HostPort m)) backoffConfig) w) = None ->
  fst (run (ValidateImage image) w)
  = StopContainer w (ID c) kStopContainerTimeout.
Proof.
  intros Hc Hs Hi Hp _.
  rewrite (ValidateImage_probe_path w image c Hc Hs info Hi m Hp).
  reflexivity.
Qed.

Lemma teardown_error_is_the_result_witness :
  CreateContainer Examples.leakyOkAgent (createOptions "ok-agent")
    = inl Examples.created
  /\ StartContainer Examples.leakyOkAgent (ID Examples.created)
       {| PublishAllPorts := true |} = None
  /\ InspectContainer Examples.leakyOkAgent (ID Examples.created)
     = inl (Examples.inspected Examples.ports1)
  /\ Ports (Network (Examples.inspected Examples.ports1)) !! "3423/tcp"
     = Some [ {| HostIP := "0.0.0.0"; HostPort := "49001" |} ]
  /\ fst (run (Retry (ping "0.0.0.0" "49001") backoffConfig)
            Examples.leakyOkAgent) = None
  /\ fst (run (ValidateImage "ok-agent") Examples.leakyOkAgent)
     = Some Examples.cannotStop.
Proof.
  repeat (split; [reflexivity|]).
  apply (teardown_error_is_the_result Examples.leakyOkAgent "ok-agent"
           Examples.created (Examples.inspected Examples.ports1)
           {| HostIP := "0.0.0.0"; HostPort := "49001" |});
    reflexivity.
Defined.

(** C5, as the spec states it, fails: the probe of the good agent succeeds,
    the container cannot be stopped, and the validation returns the
    teardown error in place of the verdict. *)
Lemma verdict_stands_fails :
  ~ verdict_stands Examples.leakyOkAgent "ok-agent" "0.0.0.0" "49001".
Proof. unfold verdict_stands. vm_compute. discriminate. Qed.

(** C8.  When the daemon cannot create the container, [ValidateImage]
    returns the creation error, and the only call it has made is
    [CreateContainer]: [StopContainer] is not called. *)
Theorem creation_failure_releases_nothing (w : World) (image : string)
  (err : error) :
  CreateContainer w (createOptions image) = inr err ->
  fst (run (ValidateImage image) w)
  = Some (Errorf "error creating container:" [OpErrorMsg err])
  /\ snd (run (ValidateImage image) w)
     = [EvCreateContainer (createOptions image)]
  /\ stops (snd (run (ValidateImage image) w)) = 0%nat.
Proof.
  intros Hc. rewrite (ValidateImage_create_fails w image err Hc).
  repeat split.
Qed.

Lemma creation_failure_releases_nothing_witness :
  CreateContainer Examples.noSuchImage (createOptions "missing")
    = inr (ErrorString "no such image")
  /\ fst (run (ValidateImage "missing") Examples.noSuchImage)
     = Some (Errorf "error creating container:"
               [OpErrorMsg (ErrorString "no such image")])
  /\ snd (run (ValidateImage "missing") Examples.noSuchImage)
     = [EvCreateContainer (createOptions "missing")]
  /\ stops (snd (run (ValidateImage "missing") Examples.noSuchImage)) = 0%nat.
Proof.
  split; [reflexivity|].
  apply (creation_failure_releases_nothing Examples.noSuchImage "missing"
           (ErrorString "no such image")).
  reflexivity.
Defined.

(** ** The backoff configuration *)

(** C6.  The initial interval is one second and the maximum elapsed time
    ten seconds, as the claim says; the maximum interval is the bare
    constant 10, that is ten nanoseconds, where the claim says ten
    seconds. *)
Theorem backoffConfig_durations :
  InitialInterval backoffConfig = time.Second
  /\ MaxElapsedTime backoffConfig = 10 * time.Second
  /\ MaxInterval backoffConfig = 10 * time.Nanosecond
  /\ MaxInterval backoffConfig <> 10 * time.Second.
Proof. vm_compute. repeat split. discriminate. Qed.

(** ** The handlers *)

(** C9.  A request to the validate endpoint with a non-empty [image]
    parameter is answered with status 200, whether [ValidateImage] returns
    an error or not; the outcome is told apart by the one piece of text
    written to the body. *)
Theorem ValidateAgentHandler_status_ok (w : World) (rw : ResponseWriter)
  (r : Request) :
  status rw = None ->
  FormValue r "image" <> EmptyString ->
  let image := FormValue r "image" in
  let rw' := fst (run (ValidateAgentHandler rw r) w) in
  status rw' = Some http.StatusOK
  /\ statusCode rw' = 200
  /\ body rw'
     = body rw ++
       [match fst (run (ValidateImage image) w) with
        | Some err => Formatted "image %s is not valid. error: %s"
                        [OpString image; OpError err]
        | None => Formatted "image %s is valid" [OpString image]
        end].
Proof.
  intros Hst Hne image rw'. subst rw'.
  apply String.eqb_neq in Hne.
  unfold ValidateAgentHandler. rewrite Hne. fold image.
  unfold run, bind, logPrintln, emit, ret.
  destruct (ValidateImage image w init) as [[err|] s]; cbn [fst snd];
    unfold Fprintf, Write, WriteHeader, statusCode; rewrite Hst; cbn;
    repeat split.
Qed.

Lemma ValidateAgentHandler_status_ok_witness :
  status newResponseWriter = None
  /\ FormValue (Examples.validateRequest "bad-port") "image" <> EmptyString
  /\ statusCode (fst (run (ValidateAgentHandler newResponseWriter
                            (Examples.validateRequest "bad-port"))
                       Examples.badPort)) = 200
  /\ body (fst (run (ValidateAgentHandler newResponseWriter
                       (Examples.validateRequest "bad-port"))
                  Examples.badPort))
     = [Formatted "image %s is not valid. error: %s"
          [OpString "bad-port";
           OpError (Errorf "container must expose port 3423/tcp. Found: %+v"
                      [OpPorts ∅])]].
Proof.
  split; [reflexivity|]. split; [vm_compute; discriminate|].
  pose proof (ValidateAgentHandler_status_ok Examples.badPort
                newResponseWriter (Examples.validateRequest "bad-port")
                eq_refl ltac:(vm_compute; discriminate)) as (_ & H2 & H3).
  split; [exact H2|]. rewrite H3. vm_compute. reflexivity.
Defined.

(** C10.  The agent-info handler does not read its request: whatever the
    request, its one call to the daemon is [InspectImage "jbenet/go-ipfs"],
    and it answers with the exposed-ports table of that image (status 500
    and no body when the daemon cannot inspect it). *)
Theorem ShowAgentInfoHandler_ignores_request (w : World)
  (rw : ResponseWriter) (r r' : Request) :
  run (ShowAgentInfoHandler rw r) w = run (ShowAgentInfoHandler rw r') w
  /\ snd (run (ShowAgentInfoHandler rw r) w) = [EvInspectImage "jbenet/go-ipfs"]
  /\ fst (run (ShowAgentInfoHandler rw r) w)
     = match InspectImage w "jbenet/go-ipfs" with
       | inl image => Encode rw (ExposedPorts (ImageConfig image))
       | inr _ => WriteHeader rw http.StatusInternalServerError
       end.
Proof.
  unfold ShowAgentInfoHandler. unfold_go.
  destruct (InspectImage w "jbenet/go-ipfs"); repeat split.
Qed.

(** * Further properties *)

(** ** The probe loop, attempt by attempt *)

Lemma sleeps_app (t1 t2 : Trace) : sleeps (t1 ++ t2) = sleeps t1 ++ sleeps t2.
Proof.
  induction t1 as [|e t1 IH]; [reflexivity|].
  destruct e; cbn; rewrite ?IH; reflexivity.
Qed.

Lemma closes_app (t1 t2 : Trace) :
  closes (t1 ++ t2) = (closes t1 + closes t2)%nat.
Proof.
  induction t1 as [|e t1 IH]; [reflexivity|].
  destruct e; cbn; rewrite ?IH; reflexivity.
Qed.

Lemma dockerCalls_app (t1 t2 : Trace) :
  dockerCalls (t1 ++ t2) = dockerCalls t1 ++ dockerCalls t2.
Proof.
  induction t1 as [|e t1 IH]; [reflexivity|].
  destruct e; cbn; rewrite ?IH; reflexivity.
Qed.

Arguments ping : simpl never.

(** One run of the closure, read against the world. *)
Lemma ping_facts (ip port : string) (w : World) (g : nat) :
  let r := ping ip port w (mkState [] g) in
  fst r = attempt w (pingURL ip port) g
  /\ gets (snd r) = S g
  /\ getURLs (trace (snd r)) = [pingURL ip port]
  /\ sleeps (trace (snd r)) = []
  /\ closes (trace (snd r))
     = (if answered w (pingURL ip port) g then 1 else 0)%nat
  /\ dockerCalls (trace (snd r)) = []
  /\ stops (trace (snd r)) = 0%nat.
Proof.
  unfold ping, attempt, answered. unfold_go.
  destruct (HttpGet w g (pingURL ip port)) as [body|err]; cbn.
  - destruct (JSONDecode w body) as [info|err]; cbn.
    + destruct (String.eqb (Owner info) "btc"); cbn; repeat split.
    + repeat split.
  - repeat split.
Qed.

Lemma retryLoop_nil (operation : M (option error)) (w : World) (s : State) :
  retryLoop operation [] w s = operation w s.
Proof.
  cbn. unfold bind, ret. destruct (operation w s) as [[e|] s1]; reflexivity.
Qed.

Lemma retryLoop_cons_ok (ip port : string) (w : World) (g : nat)
  (next : Duration) (nexts : list Duration) :
  attempt w (pingURL ip port) g = None ->
  retryLoop (ping ip port) (next :: nexts) w (mkState [] g)
  = ping ip port w (mkState [] g).
Proof.
  intros Ha. destruct (ping_facts ip port w g) as (Hr & _).
  cbn [retryLoop]. unfold bind, ret.
  destruct (ping ip port w (mkState [] g)) as [[e|] s1]; cbn in *;
    [congruence|reflexivity].
Qed.

Lemma retryLoop_cons_err (ip port : string) (w : World) (g : nat)
  (next : Duration) (nexts : list Duration) (e : error) :
  attempt w (pingURL ip port) g = Some e ->
  retryLoop (ping ip port) (next :: nexts) w (mkState [] g)
  = (fst (retryLoop (ping ip port) nexts w (mkState [] (S g))),
     mkState
       (trace (snd (ping ip port w (mkState [] g))) ++ [EvSleep next]
        ++ trace (snd (retryLoop (ping ip port) nexts w (mkState [] (S g)))))
       (gets (snd (retryLoop (ping ip port) nexts w (mkState [] (S g)))))).
Proof.
  intros Ha. destruct (ping_facts ip port w g) as (Hr & Hg & _).
  cbn [retryLoop]. unfold bind, ret.
  destruct (ping ip port w (mkState [] g)) as [[e'|] [t1 g1]]; cbn in *;
    [|congruence].
  subst g1. unfold timeSleep, emit. cbn.
  rewrite (retryLoop_framed _ nexts (ping_framed ip port) w).
  rewrite <- app_assoc. reflexivity.
Qed.

(** The loop stops at the first attempt [k] that succeeds, or at the
    attempt for which the policy has no interval left; up to there it has
    made one request per attempt and slept the first [k] intervals. *)
Lemma retryLoop_summary (ip port : string) (w : World)
  (nexts : list Duration) (g : nat) :
  let url := pingURL ip port in
  let r := retryLoop (ping ip port) nexts w (mkState [] g) in
  exists k : nat,
    (k <= length nexts)%nat
    /\ (forall j, (j < k)%nat -> attempt w url (g + j) <> None)
    /\ (attempt w url (g + k) = None \/ k = length nexts)
    /\ fst r = attempt w url (g + k)
    /\ getURLs (trace (snd r)) = replicate (S k) url
    /\ sleeps (trace (snd r)) = take k nexts
    /\ closes (trace (snd r)) = responses w url g (S k)
    /\ dockerCalls (trace (snd r)) = []
    /\ stops (trace (snd r)) = 0%nat.
Proof.
  cbn zeta. revert g. induction nexts as [|next nexts IH]; intros g.
  - exists 0%nat. rewrite retryLoop_nil, Nat.add_0_r.
    destruct (ping_facts ip port w g) as (Hr & _ & Hu & Hs & Hc & Hd & Hst).
    rewrite Hr, Hu, Hs, Hc, Hd, Hst. cbn [length take replicate responses].
    rewrite Nat.add_0_r.
    repeat split; auto; intros; lia.
  - destruct (attempt w (pingURL ip port) g) as [e|] eqn:Ha.
    + destruct (IH (S g)) as (k & Hk & Hfail & Hend & Hr & Hu & Hs & Hc
                              & Hd & Hst).
      destruct (ping_facts ip port w g) as (_ & _ & Pu & Ps & Pc & Pd & Pst).
      exists (S k). rewrite (retryLoop_cons_err ip port w g next nexts e Ha).
      cbn [fst snd trace length].
      rewrite !getURLs_app, !sleeps_app, !closes_app, !dockerCalls_app,
        !stops_app.
      rewrite Pu, Ps, Pc, Pd, Pst, Hu, Hs, Hc, Hd, Hst, Hr.
      replace (g + S k)%nat with (S g + k)%nat by lia.
      repeat split; try reflexivity.
      * lia.
      * intros j Hj. destruct j as [|j].
        -- rewrite Nat.add_0_r, Ha. discriminate.
        -- replace (g + S j)%nat with (S g + j)%nat by lia.
           apply Hfail. lia.
      * destruct Hend as [Hend|Hend]; [left; exact Hend|right; lia].
    + exists 0%nat. rewrite (retryLoop_cons_ok ip port w g next nexts Ha).
      destruct (ping_facts ip port w g) as (Hr & _ & Hu & Hs & Hc & Hd & Hst).
      rewrite Hr, Hu, Hs, Hc, Hd, Hst. cbn [length take replicate responses].
      rewrite !Nat.add_0_r.
      repeat split; auto; try lia.
Qed.

Lemma run_Retry (operation : M (option error)) (b : ExponentialBackOff)
  (w : World) :
  run (Retry operation b) w
  = (fst (retryLoop operation (BackOffs w b) w (mkState [] 0)),
     trace (snd (retryLoop operation (BackOffs w b) w (mkState [] 0)))).
Proof.
  unfold run, Retry, bind, ask, init.
  destruct (retryLoop operation (BackOffs w b) w (mkState [] 0));
    reflexivity.
Qed.

Lemma Retry_summary (ip port : string) (b : ExponentialBackOff) (w : World) :
  let url := pingURL ip port in
  let nexts := BackOffs w b in
  let r := run (Retry (ping ip port) b) w in
  exists k : nat,
    (k <= length nexts)%nat
    /\ (forall j, (j < k)%nat -> attempt w url j <> None)
    /\ (attempt w url k = None \/ k = length nexts)
    /\ fst r = attempt w url k
    /\ getURLs (snd r) = replicate (S k) url
    /\ sleeps (snd r) = take k nexts
    /\ closes (snd r) = responses w url 0 (S k)
    /\ dockerCalls (snd r) = []
    /\ stops (snd r) = 0%nat.
Proof.
  cbn zeta. rewrite run_Retry. cbn [fst snd].
  destruct (retryLoop_summary ip port w (BackOffs w b) 0) as (k & H).
  exists k. exact H.
Qed.

(** X1.  The probe succeeds exactly when one of the attempts that the policy
    leaves room for succeeds: attempt 0, or one of the attempts after each
    interval. *)
Theorem probe_succeeds_iff (w : World) (ip port : string)
  (b : ExponentialBackOff) :
  fst (run (Retry (ping ip port) b) w) = None
  <-> exists k : nat,
        (k <= length (BackOffs w b))%nat
        /\ attempt w (pingURL ip port) k = None.
Proof.
  destruct (Retry_summary ip port b w)
    as (k & Hk & Hfail & Hend & Hr & _).
  split.
  - intros Hnone. exists k. split; [exact Hk|]. rewrite <- Hr. exact Hnone.
  - intros (k' & Hk' & Hok). rewrite Hr.
    destruct Hend as [Hend|Hend]; [exact Hend|].
    destruct (decide (k' = k)) as [->|Hne]; [exact Hok|].
    exfalso. apply (Hfail k'); [lia|exact Hok].
Qed.

Lemma probe_succeeds_iff_witness :
  (exists k : nat,
      (k <= length (BackOffs Examples.lateAgent backoffConfig))%nat
      /\ attempt Examples.lateAgent (pingURL "0.0.0.0" "49001") k = None)
  /\ fst (run (Retry (ping "0.0.0.0" "49001") backoffConfig)
            Examples.lateAgent) = None.
Proof.
  assert (H : exists k : nat,
             (k <= length (BackOffs Examples.lateAgent backoffConfig))%nat
             /\ attempt Examples.lateAgent (pingURL "0.0.0.0" "49001") k
                = None).
  { exists 1%nat. split; [vm_compute; lia|reflexivity]. }
  split; [exact H|].
  apply (proj2 (probe_succeeds_iff Examples.lateAgent "0.0.0.0" "49001"
                  backoffConfig)).
  exact H.
Defined.

(** X2.  When attempt [k] is the first to succeed and the policy leaves room for
    it, the probe succeeds after exactly [k + 1] requests, all to the same
    URL, having slept the first [k] intervals of the policy in order: no
    request follows a success. *)
Theorem probe_stops_at_first_success (w : World) (ip port : string)
  (b : ExponentialBackOff) (k : nat) :
  (forall j, (j < k)%nat -> attempt w (pingURL ip port) j <> None) ->
  attempt w (pingURL ip port) k = None ->
  (k <= length (BackOffs w b))%nat ->
  fst (run (Retry (ping ip port) b) w) = None
  /\ getURLs (snd (run (Retry (ping ip port) b) w))
     = replicate (S k) (pingURL ip port)
  /\ sleeps (snd (run (Retry (ping ip port) b) w)) = take k (BackOffs w b).
Proof.
  intros Hfail Hok Hk.
  destruct (Retry_summary ip port b w)
    as (k' & Hk' & Hfail' & Hend & Hr & Hu & Hs & _).
  assert (k' = k) as ->.
  { destruct (Nat.lt_trichotomy k' k) as [Hlt|[Heq|Hgt]]; [|exact Heq|].
    - destruct Hend as [Hend|Hend]; [|lia].
      exfalso. exact (Hfail k' Hlt Hend).
    - exfalso. exact (Hfail' k Hgt Hok). }
  rewrite Hr, Hu, Hs. auto.
Qed.

Lemma probe_stops_at_first_success_witness :
  (forall j, (j < 1)%nat ->
     attempt Examples.lateAgent (pingURL "0.0.0.0" "49001") j <> None)
  /\ attempt Examples.lateAgent (pingURL "0.0.0.0" "49001") 1 = None
  /\ (1 <= length (BackOffs Examples.lateAgent backoffConfig))%nat
  /\ fst (run (Retry (ping "0.0.0.0" "49001") backoffConfig)
            Examples.lateAgent) = None
  /\ getURLs (snd (run (Retry (ping "0.0.0.0" "49001") backoffConfig)
                     Examples.lateAgent))
     = ["http://0.0.0.0:49001/ping"; "http://0.0.0.0:49001/ping"]
  /\ sleeps (snd (run (Retry (ping "0.0.0.0" "49001") backoffConfig)
                    Examples.lateAgent)) = [time.Second].
Proof.
  assert (H0 : forall j, (j < 1)%nat ->
             attempt Examples.lateAgent (pingURL "0.0.0.0" "49001") j
             <> None).
  { intros j Hj. assert (j = 0%nat) as -> by lia. vm_compute. discriminate. }
  assert (H2 : (1 <= length (BackOffs Examples.lateAgent backoffConfig))%nat).
  { vm_compute. lia. }
  split; [exact H0|]. split; [reflexivity|]. split; [exact H2|].
  exact (probe_stops_at_first_success Examples.lateAgent "0.0.0.0" "49001"
           backoffConfig 1 H0 eq_refl H2).
Defined.

(** X3.  When no attempt succeeds while the policy lasts, the probe makes one
    request more than the policy has intervals, sleeps every interval, and
    returns the error of the last attempt. *)
Theorem probe_gives_up_with_last_error (w : World) (ip port : string)
  (b : ExponentialBackOff) :
  (forall j, (j <= length (BackOffs w b))%nat ->
     attempt w (pingURL ip port) j <> None) ->
  fst (run (Retry (ping ip port) b) w)
  = attempt w (pingURL ip port) (length (BackOffs w b))
  /\ probes (snd (run (Retry (ping ip port) b) w))
     = S (length (BackOffs w b))
  /\ sleeps (snd (run (Retry (ping ip port) b) w)) = BackOffs w b.
Proof.
  intros Hfail.
  destruct (Retry_summary ip port b w)
    as (k & Hk & _ & Hend & Hr & Hu & Hs & _).
  assert (k = length (BackOffs w b)) as Hlen.
  { destruct Hend as [Hend|Hend]; [|exact Hend].
    exfalso. exact (Hfail k Hk Hend). }
  unfold probes. rewrite Hr, Hu, Hs, length_replicate, Hlen.
  rewrite firstn_all. auto.
Qed.

Lemma probe_gives_up_with_last_error_witness :
  (forall j, (j <= length (BackOffs Examples.slowAgent backoffConfig))%nat ->
     attempt Examples.slowAgent (pingURL "0.0.0.0" "49001") j <> None)
  /\ fst (run (Retry (ping "0.0.0.0" "49001") backoffConfig)
            Examples.slowAgent) = Some Examples.refused
  /\ probes (snd (run (Retry (ping "0.0.0.0" "49001") backoffConfig)
                    Examples.slowAgent)) = 4%nat
  /\ sleeps (snd (run (Retry (ping "0.0.0.0" "49001") backoffConfig)
                    Examples.slowAgent)) = [time.Second; 10; 10].
Proof.
  assert (H0 : forall j,
             (j <= length (BackOffs Examples.slowAgent backoffConfig))%nat ->
             attempt Examples.slowAgent (pingURL "0.0.0.0" "49001") j
             <> None).
  { intros j _. vm_compute. discriminate. }
  split; [exact H0|].
  exact (probe_gives_up_with_last_error Examples.slowAgent "0.0.0.0" "49001"
           backoffConfig H0).
Defined.

(** X4.  Every response that the probe receives has its body closed, and nothing
    else is closed: the bodies closed are as many as the requests that were
    answered. *)
Theorem probe_closes_every_body (w : World) (ip port : string)
  (b : ExponentialBackOff) :
  closes (snd (run (Retry (ping ip port) b) w))
  = responses w (pingURL ip port) 0
      (probes (snd (run (Retry (ping ip port) b) w))).
Proof.
  destruct (Retry_summary ip port b w)
    as (k & _ & _ & _ & _ & Hu & _ & Hc & _).
  unfold probes. rewrite Hc, Hu, length_replicate. reflexivity.
Qed.

(** ** The whole of a validation *)

(** The ways through [ValidateImage], with the trace of each. *)
Lemma ValidateImage_cases (w : World) (image : string) :
  let opts := createOptions image in
  let hc := {| PublishAllPorts := true |} in
  (exists e e',
      CreateContainer w opts = inr e
      /\ run (ValidateImage image) w = (Some e', [EvCreateContainer opts]))
  \/ exists c : Container,
       CreateContainer w opts = inl c
       /\ ((exists e', run (ValidateImage image) w
                       = (Some e', [EvCreateContainer opts;
                                    EvStartContainer (ID c) hc]))
           \/ (exists e', run (ValidateImage image) w
                          = (Some e', [EvCreateContainer opts;
                                       EvStartContainer (ID c) hc;
                                       EvInspectContainer (ID c)]))
           \/ (exists m : PortBinding,
                  run (ValidateImage image) w
                  = (StopContainer w (ID c) kStopContainerTimeout,
                     [EvCreateContainer opts;
                      EvStartContainer (ID c) hc;
                      EvInspectContainer (ID c)]
                     ++ snd (run (Retry (ping (HostIP m) (HostPort m))
                                    backoffConfig) w)
                     ++ [EvStopContainer (ID c) kStopContainerTimeout]))).
Proof.
  cbn zeta.
  destruct (CreateContainer w (createOptions image)) as [c|e] eqn:Hc.
  2:{ left. eexists _, _. split; [reflexivity|].
      apply (ValidateImage_create_fails w image e Hc). }
  right. exists c. split; [reflexivity|].
  destruct (StartContainer w (ID c) {| PublishAllPorts := true |})
    as [e|] eqn:Hs.
  { left. eexists. apply (ValidateImage_start_fails w image c Hc e Hs). }
  right.
  destruct (InspectContainer w (ID c)) as [info|e] eqn:Hi.
  2:{ left. eexists.
      apply (ValidateImage_inspect_fails w image c Hc Hs e Hi). }
  destruct (Ports (Network info) !! "3423/tcp") as [mappings|] eqn:Hp.
  2:{ left. eexists.
      apply (ValidateImage_port_missing w image c Hc Hs info Hi Hp). }
  destruct (decide (length mappings = 1%nat)) as [Hl|Hl].
  2:{ left. eexists.
      apply (ValidateImage_not_one_mapping w image c Hc Hs info Hi
               mappings Hp Hl). }
  destruct mappings as [|m [|m2 rest]]; try discriminate Hl.
  right. exists m.
  apply (ValidateImage_probe_path w image c Hc Hs info Hi m Hp).
Qed.

(** X5.  The calls that a validation makes to the Docker daemon are the first
    two, three or four of: create, start, inspect, stop; each call after
    the creation is on the container that the creation returned, the start
    asks for all ports to be published, and the stop allows five seconds. *)
Theorem ValidateImage_docker_calls (w : World) (image : string)
  (c : Container) :
  CreateContainer w (createOptions image) = inl c ->
  exists n : nat,
    (2 <= n <= 4)%nat
    /\ dockerCalls (snd (run (ValidateImage image) w))
       = take n [EvCreateContainer (createOptions image);
                 EvStartContainer (ID c) {| PublishAllPorts := true |};
                 EvInspectContainer (ID c);
                 EvStopContainer (ID c) 5].
Proof.
  intros Hc.
  destruct (ValidateImage_cases w image)
    as [(e & e' & Hc' & _)|(c' & Hc' & H)]; [congruence|].
  assert (c' = c) as -> by congruence.
  destruct H as [(e' & ->)|[(e' & ->)|(m & ->)]].
  - exists 2%nat. split; [lia|reflexivity].
  - exists 3%nat. split; [lia|reflexivity].
  - exists 4%nat. split; [lia|].
    destruct (Retry_summary (HostIP m) (HostPort m) backoffConfig w)
      as (k & _ & _ & _ & _ & _ & _ & _ & Hd & _).
    cbn [snd]. rewrite !dockerCalls_app, Hd. reflexivity.
Qed.

Lemma ValidateImage_docker_calls_witness :
  CreateContainer Examples.okAgent (createOptions "ok-agent")
    = inl Examples.created
  /\ exists n : nat,
       (2 <= n <= 4)%nat
       /\ dockerCalls (snd (run (ValidateImage "ok-agent") Examples.okAgent))
          = take n [EvCreateContainer (createOptions "ok-agent");
                    EvStartContainer "c1" {| PublishAllPorts := true |};
                    EvInspectContainer "c1";
                    EvStopContainer "c1" 5].
Proof.
  split; [reflexivity|].
  exact (ValidateImage_docker_calls Examples.okAgent "ok-agent"
           Examples.created eq_refl).
Defined.

(** X6.  A validation stops the container exactly when it has probed it: one
    call of [StopContainer] when at least one request was made, none
    otherwise. *)
Theorem ValidateImage_stops_iff_probed (w : World) (image : string) :
  stops (snd (run (ValidateImage image) w))
  = Nat.min 1 (probes (snd (run (ValidateImage image) w))).
Proof.
  destruct (ValidateImage_cases w image)
    as [(e & e' & _ & ->)|(c & _ & [(e' & ->)|[(e' & ->)|(m & ->)]])];
    try reflexivity.
  destruct (Retry_summary (HostIP m) (HostPort m) backoffConfig w)
    as (k & _ & _ & _ & _ & Hu & _ & _ & _ & Hst).
  cbn [snd]. unfold probes.
  rewrite !stops_app, !getURLs_app, Hst, Hu, !length_app, length_replicate.
  reflexivity.
Qed.

(** X7.  A validation that returns no error has created a container, and its
    last call was the one that stopped that container, successfully. *)
Theorem ValidateImage_success_has_stopped (w : World) (image : string) :
  fst (run (ValidateImage image) w) = None ->
  exists c : Container,
    CreateContainer w (createOptions image) = inl c
    /\ StopContainer w (ID c) 5 = None
    /\ last (snd (run (ValidateImage image) w))
       = Some (EvStopContainer (ID c) 5)
    /\ stops (snd (run (ValidateImage image) w)) = 1%nat.
Proof.
  intros Hnone.
  destruct (ValidateImage_cases w image)
    as [(e & e' & _ & H)|(c & Hc & [(e' & H)|[(e' & H)|(m & H)]])];
    rewrite H in Hnone |- *; try discriminate Hnone.
  exists c. split; [exact Hc|]. split; [exact Hnone|].
  destruct (Retry_summary (HostIP m) (HostPort m) backoffConfig w)
    as (k & _ & _ & _ & _ & _ & _ & _ & _ & Hst).
  cbn [snd]. split.
  - rewrite !app_assoc. apply last_snoc.
  - rewrite !stops_app, Hst. reflexivity.
Qed.

Lemma ValidateImage_success_has_stopped_witness :
  fst (run (ValidateImage "ok-agent") Examples.okAgent) = None
  /\ exists c : Container,
       CreateContainer Examples.okAgent (createOptions "ok-agent") = inl c
       /\ StopContainer Examples.okAgent (ID c) 5 = None
       /\ last (snd (run (ValidateImage "ok-agent") Examples.okAgent))
          = Some (EvStopContainer (ID c) 5)
       /\ stops (snd (run (ValidateImage "ok-agent") Examples.okAgent))
          = 1%nat.
Proof.
  split; [reflexivity|].
  exact (ValidateImage_success_has_stopped Examples.okAgent "ok-agent"
           eq_refl).
Defined.

(** X8.  In any validation the requests are at most one more than the intervals
    of the policy, and the intervals slept are the first of the policy, in
    order, one between each two consecutive requests. *)
Theorem ValidateImage_probe_budget (w : World) (image : string) :
  let t := snd (run (ValidateImage image) w) in
  (probes t <= S (length (BackOffs w backoffConfig)))%nat
  /\ sleeps t = take (probes t - 1) (BackOffs w backoffConfig).
Proof.
  cbn zeta.
  destruct (ValidateImage_cases w image)
    as [(e & e' & _ & ->)|(c & _ & [(e' & ->)|[(e' & ->)|(m & ->)]])];
    try (cbn; split; [lia|reflexivity]).
  destruct (Retry_summary (HostIP m) (HostPort m) backoffConfig w)
    as (k & Hk & _ & _ & _ & Hu & Hs & _).
  cbn [snd]. unfold probes.
  rewrite !sleeps_app, !getURLs_app, Hs, Hu, !length_app, length_replicate.
  cbn. rewrite app_nil_r, Nat.add_0_r, Nat.sub_0_r.
  split; [lia|reflexivity].
Qed.

(** ** The validate handler, beyond its status *)

(** X9.  A request without an [image] parameter, or with an empty one, is
    answered with status 400 and one line of text; no call reaches the
    Docker daemon, and the handler logs its return. *)
Theorem ValidateAgentHandler_requires_image (w : World)
  (rw : ResponseWriter) (r : Request) :
  status rw = None ->
  FormValue r "image" = EmptyString ->
  run (ValidateAgentHandler rw r) w
  = ({| status := Some http.StatusBadRequest;
        body := body rw ++ [Line [OpString "`image` parameter is required"]] |},
     [EvLog [OpString "returned"]]).
Proof.
  intros Hst He. unfold ValidateAgentHandler. rewrite He.
  cbn [String.eqb]. unfold_go.
  unfold Fprintln, Write, WriteHeader. rewrite Hst. cbn. reflexivity.
Qed.

Lemma ValidateAgentHandler_requires_image_witness :
  status newResponseWriter = None
  /\ FormValue MoreExamples.noImage "image" = EmptyString
  /\ run (ValidateAgentHandler newResponseWriter MoreExamples.noImage)
         Examples.okAgent
     = ({| status := Some 400;
           body := [Line [OpString "`image` parameter is required"]] |},
        [EvLog [OpString "returned"]]).
Proof.
  split; [reflexivity|]. split; [reflexivity|].
  exact (ValidateAgentHandler_requires_image Examples.okAgent
           newResponseWriter MoreExamples.noImage eq_refl eq_refl).
Defined.

(** X10.  With a non-empty [image] parameter the handler validates that image
    once and does nothing else to the outside: its trace is the trace of
    [ValidateImage] on the parameter, followed by the log of its return. *)
Theorem ValidateAgentHandler_validates_once (w : World)
  (rw : ResponseWriter) (r : Request) :
  FormValue r "image" <> EmptyString ->
  snd (run (ValidateAgentHandler rw r) w)
  = snd (run (ValidateImage (FormValue r "image")) w)
    ++ [EvLog [OpString "returned"]].
Proof.
  intros Hne. apply String.eqb_neq in Hne.
  unfold ValidateAgentHandler. rewrite Hne.
  unfold run, bind, logPrintln, emit, ret.
  destruct (ValidateImage (FormValue r "image") w init) as [[err|] s];
    reflexivity.
Qed.

Lemma ValidateAgentHandler_validates_once_witness :
  FormValue (Examples.validateRequest "bad-port") "image" <> EmptyString
  /\ snd (run (ValidateAgentHandler newResponseWriter
                 (Examples.validateRequest "bad-port")) Examples.badPort)
     = snd (run (ValidateImage "bad-port") Examples.badPort)
       ++ [EvLog [OpString "returned"]].
Proof.
  assert (H : FormValue (Examples.validateRequest "bad-port") "image"
              <> EmptyString) by (vm_compute; discriminate).
  split; [exact H|].
  exact (ValidateAgentHandler_validates_once Examples.badPort
           newResponseWriter (Examples.validateRequest "bad-port") H).
Defined.

(** ** The upload handler *)

(** X11.  An upload whose body does not decode, or whose source is not
    ["dockerhub"], never reaches the Docker daemon: the answer is 400 for a
    body that does not decode, 501 for the source ["github"], and 400 for
    any other source. *)
Theorem UploadImageHandler_other_sources (w : World)
  (decode : Request -> UploadRequest + error)
  (rw : ResponseWriter) (r : Request) :
  status rw = None ->
  match decode r with
  | inl rs => rsSource rs <> "dockerhub"
  | inr _ => True
  end ->
  snd (run (UploadImageHandler decode rw r) w) = []
  /\ statusCode (fst (run (UploadImageHandler decode rw r) w))
     = match decode r with
       | inr _ => 400
       | inl rs => if String.eqb (rsSource rs) "github" then 501 else 400
       end
  /\ length (body (fst (run (UploadImageHandler decode rw r) w)))
     = S (length (body rw)).
Proof.
  intros Hst Hsrc. unfold UploadImageHandler.
  destruct (decode r) as [rs|err].
  - apply String.eqb_neq in Hsrc. rewrite Hsrc.
    destruct (String.eqb (rsSource rs) "github"); unfold_go;
      unfold Fprintln, Fprintf, Write, WriteHeader, statusCode;
      rewrite Hst; cbn; rewrite length_app; cbn;
      repeat split; lia.
  - unfold_go. unfold Fprintf, Write, WriteHeader, statusCode.
    rewrite Hst. cbn. rewrite length_app. cbn. repeat split; lia.
Qed.

Lemma UploadImageHandler_other_sources_witness :
  status newResponseWriter = None
  /\ rsSource (MoreExamples.fromGithub "agent") <> "dockerhub"
  /\ snd (run (UploadImageHandler
                 (MoreExamples.decodeAs (MoreExamples.fromGithub "agent"))
                 newResponseWriter MoreExamples.noImage) Examples.okAgent)
     = []
  /\ statusCode
       (fst (run (UploadImageHandler
                    (MoreExamples.decodeAs (MoreExamples.fromGithub "agent"))
                    newResponseWriter MoreExamples.noImage) Examples.okAgent))
     = 501.
Proof.
  assert (H : rsSource (MoreExamples.fromGithub "agent") <> "dockerhub")
    by (vm_compute; discriminate).
  split; [reflexivity|]. split; [exact H|].
  pose proof (UploadImageHandler_other_sources Examples.okAgent
                (MoreExamples.decodeAs (MoreExamples.fromGithub "agent"))
                newResponseWriter MoreExamples.noImage eq_refl H)
    as (H1 & H2 & _).
  split; [exact H1|exact H2].
Defined.

(** X12.  An upload from ["dockerhub"] validates the image of the request, once.
    When the validation returns an error the answer is 400 with the error
    in the text; when it returns none the handler writes nothing, so the
    answer is 200 with an empty body. *)
Theorem UploadImageHandler_dockerhub (w : World)
  (decode : Request -> UploadRequest + error)
  (rw : ResponseWriter) (r : Request) (rs : UploadRequest) :
  status rw = None ->
  decode r = inl rs ->
  rsSource rs = "dockerhub" ->
  snd (run (UploadImageHandler decode rw r) w)
  = snd (run (ValidateImage (rsImage rs)) w)
  /\ fst (run (UploadImageHandler decode rw r) w)
     = match fst (run (ValidateImage (rsImage rs)) w) with
       | Some err =>
           {| status := Some http.StatusBadRequest;
              body := body rw ++
                      [Formatted "image %s is not valid. error: %s"
                         [OpString (rsImage rs); OpError err]] |}
       | None => rw
       end
  /\ statusCode (fst (run (UploadImageHandler decode rw r) w))
     = match fst (run (ValidateImage (rsImage rs)) w) with
       | Some _ => 400
       | None => 200
       end.
Proof.
  intros Hst Hd Hsrc. unfold UploadImageHandler. rewrite Hd, Hsrc.
  cbn [String.eqb Ascii.eqb Bool.eqb]. cbv iota.
  unfold run, bind, ret.
  destruct (ValidateImage (rsImage rs) w init) as [[err|] s];
    cbn [fst snd]; unfold Fprintf, Write, WriteHeader, statusCode;
    rewrite ?Hst; cbn; repeat split.
Qed.

Lemma UploadImageHandler_dockerhub_witness :
  status newResponseWriter = None
  /\ MoreExamples.decodeAs (MoreExamples.fromDockerhub "slow-agent")
       MoreExamples.noImage
     = inl (MoreExamples.fromDockerhub "slow-agent")
  /\ rsSource (MoreExamples.fromDockerhub "slow-agent") = "dockerhub"
  /\ fst (run (UploadImageHandler
                 (MoreExamples.decodeAs
                    (MoreExamples.fromDockerhub "slow-agent"))
                 newResponseWriter MoreExamples.noImage) Examples.slowAgent)
     = newResponseWriter.
Proof.
  repeat (split; [reflexivity|]).
  pose proof (UploadImageHandler_dockerhub Examples.slowAgent
                (MoreExamples.decodeAs
                   (MoreExamples.fromDockerhub "slow-agent"))
                newResponseWriter MoreExamples.noImage
                (MoreExamples.fromDockerhub "slow-agent")
                eq_refl eq_refl eq_refl) as (_ & H2 & _).
  rewrite H2. reflexivity.
Defined.

(** ** The pull handler *)

(** Writing pieces of text one after the other: the body grows by the
    pieces, and the header is written, with status 200 unless one was
    written before, as soon as there is a piece. *)
Lemma Write_streamed (output : list string) (rw : ResponseWriter) :
  let rw' := fold_left (fun w text => Write w (streamed text)) output rw in
  body rw' = body rw ++ map streamed output
  /\ status rw' = match output with
                  | [] => status rw
                  | _ :: _ => Some (default http.StatusOK (status rw))
                  end.
Proof.
  cbn zeta. revert rw. induction output as [|text output IH]; intros rw.
  - cbn. rewrite app_nil_r. auto.
  - cbn [fold_left map].
    destruct (IH (Write rw (streamed text))) as (Hb & Hs).
    rewrite Hb, Hs. unfold Write, WriteHeader.
    destruct (status rw) as [code|] eqn:Hst; cbn; rewrite ?Hst;
      rewrite <- app_assoc; destruct output; cbn; rewrite ?Hst; auto.
Qed.

(** X13.  The answer of the pull handler.  Without an [image] parameter: status
    400, nothing written, no pull.  With one: a single pull of that
    repository, tag ["latest"], from the Docker Hub index; the progress
    output goes to the body, followed by the error when the pull fails.
    The status is 500 only when the pull fails before any output: once
    output is written the header has gone out with status 200, and the
    later [WriteHeader] changes nothing. *)
Theorem PullDockerHubAgentHandler_answer
  (PullImage : PullImageOptions -> list string * option error)
  (rw : ResponseWriter) (r : Request) :
  status rw = None ->
  let image := FormValue r "image" in
  let opts := {| Registry := "https://index.docker.io";
                 Repository := image;
                 Tag := "latest" |} in
  let rw' := fst (PullDockerHubAgentHandler PullImage rw r) in
  let pulls := snd (PullDockerHubAgentHandler PullImage rw r) in
  if String.eqb image EmptyString then
    pulls = [] /\ statusCode rw' = 400 /\ body rw' = body rw
  else
    pulls = [opts]
    /\ statusCode rw'
       = match PullImage opts with
         | ([], Some _) => 500
         | _ => 200
         end
    /\ body rw'
       = body rw ++ map streamed (fst (PullImage opts))
         ++ match snd (PullImage opts) with
            | Some err => [Line [OpError err]]
            | None => []
            end.
Proof.
  intros Hst. cbn zeta. unfold PullDockerHubAgentHandler.
  destruct (String.eqb (FormValue r "image") EmptyString).
  - unfold WriteHeader, statusCode. rewrite Hst. cbn. auto.
  - destruct (PullImage _) as [output err].
    destruct (Write_streamed output rw) as (Hb & Hs).
    remember (fold_left (fun w text => Write w (streamed text)) output rw)
      as rw1 eqn:E.
    clear E. destruct rw1 as [st1 b1]. cbn [status body] in Hb, Hs.
    rewrite Hst in Hs. subst st1 b1. cbn [fst snd].
    destruct err as [err|]; (split; [reflexivity|]).
    + unfold Fprintln, Write, WriteHeader, statusCode.
      destruct output as [|text output]; cbn;
        rewrite <- ?app_assoc; auto.
    + unfold statusCode. rewrite app_nil_r.
      destruct output; cbn; auto.
Qed.

Lemma PullDockerHubAgentHandler_answer_witness :
  status newResponseWriter = None
  /\ snd (PullDockerHubAgentHandler MoreExamples.pullFailsMidway
            newResponseWriter (Examples.validateRequest "agent"))
     = [ {| Registry := "https://index.docker.io";
            Repository := "agent";
            Tag := "latest" |} ]
  /\ statusCode (fst (PullDockerHubAgentHandler MoreExamples.pullFailsMidway
                        newResponseWriter (Examples.validateRequest "agent")))
     = 200
  /\ statusCode (fst (PullDockerHubAgentHandler MoreExamples.pullFailsAtOnce
                        newResponseWriter (Examples.validateRequest "agent")))
     = 500.
Proof.
  split; [reflexivity|].
  pose proof (PullDockerHubAgentHandler_answer MoreExamples.pullFailsMidway
                newResponseWriter (Examples.validateRequest "agent")
                eq_refl) as H.
  pose proof (PullDockerHubAgentHandler_answer MoreExamples.pullFailsAtOnce
                newResponseWriter (Examples.validateRequest "agent")
                eq_refl) as H'.
  cbn zeta in H, H'.
  change (String.eqb (FormValue (Examples.validateRequest "agent") "image")
            EmptyString) with false in H, H'.
  cbv iota in H, H'.
  destruct H as (H1 & H2 & _). destruct H' as (_ & H2' & _).
  split; [exact H1|]. split; [exact H2|exact H2'].
Defined.
